(** * Brave Search MCP server: cache, backend client, strategy orchestrator
      and tool facade

    A shallow embedding of the search core of [server.py] as the developer
    guide of the repository gives it in its code blocks: the module-level
    cache dictionary with its time-to-live, the caching pattern, the
    multi-strategy loop of [smart_search], the tool template [new_tool_name]
    and the error handling pattern.  The functions whose bodies the guide
    does not show ([is_cache_valid], [make_brave_request], [try_strategy],
    [result_is_good_enough], [research_search], the four registered tools)
    are modelled from the specification and marked so.

    Python state (the module globals, the wall clock, the provider behind the
    network, the logger) is one record [World]; a coroutine is a function from
    [World] to an outcome (a returned value or a raised exception) and the
    next [World]. *)

From stdpp Require Import base option list strings pretty gmap fin_maps.
From Stdlib Require Import ZArith Lia.

Local Open Scope string_scope.
Local Open Scope Z_scope.

(** ** Data model *)

Inductive SourceType := Web | News | Faq.

#[global] Instance SourceType_eq_dec : EqDecision SourceType.
Proof. solve_decision. Defined.

Inductive Freshness := PD | PW | PM | PY.

#[global] Instance Freshness_eq_dec : EqDecision Freshness.
Proof. solve_decision. Defined.

(** One entry of [results] in a section of the provider's response. *)
Record RawRecord := mkRaw {
  raw_title : string;
  raw_url : string;
  raw_description : string;
  raw_snippet : string;
  raw_age : string;
  raw_language : string;
}.

(** The same entry once tagged with the section it came from. *)
Record ResultRecord := mkRecord {
  title : string;
  url : string;
  description : string;
  snippet : string;
  age : string;
  language : string;
  sourceType : SourceType;
}.

(** One entry of the [strategies] list of [smart_search]: the dictionary
    [{"query": ..., "params": {...}}]. *)
Record Strategy := mkStrategy {
  s_query : string;
  s_params : gmap string string;
}.

Record ResultSet := mkResultSet {
  records : list ResultRecord;
  strategyUsed : option Strategy;
  attemptCount : nat;
  totalAvailable : nat;
  thresholdNotMet : bool;
}.

Record SearchRequest := mkRequest {
  query : string;
  country : option string;
  search_lang : option string;
  freshness : option Freshness;
  result_filter : option SourceType;
  count : Z;
  offset : Z;
}.

(** The request as it leaves the process: the parameters and the
    [X-Subscription-Token] header. *)
Record OutboundCall := mkCall {
  token : string;
  params : SearchRequest;
}.

Inductive ErrorKind :=
  Unauthorized | RateLimited | InvalidRequest | Unavailable | Malformed.

#[global] Instance ErrorKind_eq_dec : EqDecision ErrorKind.
Proof. solve_decision. Defined.

Record BackendError := mkError {
  kind : ErrorKind;
  detail : string;
}.

(** Python exceptions that derive from [Exception]: the typed error of the
    backend client ([BraveSearchError] in the guide) and everything else. *)
Inductive Exn :=
  | BraveSearchError (e : BackendError)
  | OtherException (name message : string).

Inductive Outcome (A : Type) :=
  | Returned (a : A)
  | Raised (e : Exn).
Arguments Returned {A} a.
Arguments Raised {A} e.

(** ** The provider as seen through the HTTP transport *)

Record ProviderPayload := mkPayload {
  web_results : list RawRecord;
  news_results : list RawRecord;
  faq_results : list RawRecord;
}.

Inductive Body :=
  | NotJson
  | SchemaMismatch
  | Grouped (p : ProviderPayload).

Inductive Transport :=
  | HttpResponse (status : Z) (body : Body)
  | Timeout
  | ConnectionFailure.

Record Reply := mkReply {
  delay : Z;
  transport : Transport;
}.

(** The additional source a deep research consults: the label of its
    section, how the topic becomes its query, and its result filter. *)
Record ExtraSource := mkExtra {
  extra_label : string;
  extra_query : string → string;
  extra_filter : option SourceType;
}.

(** ** The world a coroutine runs in

    [search_cache] and [cache_ttl] are the module globals of the guide
    (lines 54-55); [clock] is what [datetime.now()] reads, in microseconds;
    [provider n c] is the reply to the [n]-th outbound call when it is [c];
    [calls] is the chronological list of outbound calls; [logged] is what
    [logger.error] received; [api_key] and [extra_source] are configuration. *)
Record World := mkWorld {
  search_cache : gmap string (ResultSet * Z);
  cache_ttl : Z;
  clock : Z;
  api_key : string;
  extra_source : ExtraSource;
  provider : nat → OutboundCall → Reply;
  calls : list OutboundCall;
  logged : list string;
}.

Definition with_cache (c : gmap string (ResultSet * Z)) (w : World) : World :=
  mkWorld c (cache_ttl w) (clock w) (api_key w) (extra_source w) (provider w) (calls w) (logged w).

Definition with_clock (t : Z) (w : World) : World :=
  mkWorld (search_cache w) (cache_ttl w) t (api_key w) (extra_source w) (provider w) (calls w) (logged w).

Definition with_calls (cs : list OutboundCall) (w : World) : World :=
  mkWorld (search_cache w) (cache_ttl w) (clock w) (api_key w) (extra_source w) (provider w) cs (logged w).

Definition with_logged (l : list string) (w : World) : World :=
  mkWorld (search_cache w) (cache_ttl w) (clock w) (api_key w) (extra_source w) (provider w) (calls w) l.

(** [timedelta(hours=1)] in microseconds. *)
Definition one_hour : Z := 3600000000.

(** The world at start-up: [search_cache = {}], [cache_ttl = timedelta(hours=1)]. *)
Definition fresh_world (key : string) (extra : ExtraSource)
    (p : nat → OutboundCall → Reply) (t : Z) : World :=
  mkWorld ∅ one_hour t key extra p [] [].

(** ** Coroutines *)

Definition M (A : Type) : Type := World → Outcome A * World.

Definition run {A} (m : M A) (w : World) : Outcome A * World := m w.

#[global] Instance M_ret : MRet M := λ A a w, (Returned a, w).

#[global] Instance M_bind : MBind M := λ A B f m w,
  match m w with
  | (Returned a, w') => f a w'
  | (Raised e, w') => (Raised e, w')
  end.

Definition raise {A} (e : Exn) : M A := λ w, (Raised e, w).

(** [try: m except Exception as e: ...], with the outcome handed to the
    continuation. *)
Definition attempt {A} (m : M A) : M (Outcome A) := λ w,
  match m w with
  | (o, w') => (Returned o, w')
  end.

Definition gets {A} (f : World → A) : M A := λ w, (Returned (f w), w).

Definition modify (f : World → World) : M () := λ w, (Returned (), f w).

(** [datetime.now()] *)
Definition now : M Z := gets clock.

Definition logger_error (msg : string) : M () :=
  modify (λ w, with_logged (logged w ++ [msg]) w).

(** Time passing between two calls of a tool. *)
Definition advance (d : Z) : M () :=
  modify (λ w, with_clock (clock w + d) w).

(** ** Cache (guide lines 54-56, 202-214, 431) *)

Module Cache.

(** Modelled from the spec: the body of [is_cache_valid(timestamp)], of
    which the guide shows the signature only; an entry is valid only while
    [now - storedAt < ttl]. *)
Definition is_cache_valid (timestamp : Z) : M bool :=
  t ← now;
  ttl ← gets cache_ttl;
  mret (bool_decide (t - timestamp < ttl)).

(** [if cache_key in search_cache: cached_result, timestamp =
    search_cache[cache_key]; if is_cache_valid(timestamp): return
    cached_result], falling through with nothing otherwise. *)
Definition get (cache_key : string) : M (option ResultSet) :=
  entry ← gets (λ w, search_cache w !! cache_key);
  match entry with
  | Some (cached_result, timestamp) =>
      valid ← is_cache_valid timestamp;
      if valid : bool then mret (Some cached_result) else mret None
  | None => mret None
  end.

(** [search_cache[cache_key] = (result, datetime.now())] *)
Definition put (cache_key : string) (result : ResultSet) : M () :=
  t ← now;
  modify (λ w, with_cache (<[cache_key := (result, t)]> (search_cache w)) w).

(** [search_cache.clear()] *)
Definition clear : M () := modify (with_cache ∅).

(** The caching pattern around an expensive operation. *)
Definition cached (cache_key : string) (expensive_operation : M ResultSet)
  : M ResultSet :=
  hit ← get cache_key;
  match hit with
  | Some cached_result => mret cached_result
  | None =>
      result ← expensive_operation;
      put cache_key result;;
      mret result
  end.

End Cache.

(** ** Search backend client *)

Module Backend.

(** Modelled from the spec: the status mapping of [make_brave_request],
    whose body the guide does not show.  401/403 are Unauthorized, 429 is
    RateLimited, the other 4xx are InvalidRequest, 5xx is Unavailable; a 2xx
    status is no failure.  The spec is silent on the remaining statuses; they
    are taken as Unavailable here. *)
Definition classify_status (status : Z) : option ErrorKind :=
  if bool_decide (200 ≤ status < 300) then None
  else if bool_decide (status = 401 ∨ status = 403) then Some Unauthorized
  else if bool_decide (status = 429) then Some RateLimited
  else if bool_decide (400 ≤ status < 500) then Some InvalidRequest
  else Some Unavailable.

(** The message of the exception, as the test log of the Agent API shows it
    ("API request failed with status 422"). *)
Definition status_detail (status : Z) : string :=
  "API request failed with status " +:+ pretty status.

Definition tag (source : SourceType) (r : RawRecord) : ResultRecord :=
  mkRecord (raw_title r) (raw_url r) (raw_description r) (raw_snippet r)
           (raw_age r) (raw_language r) source.

Definition requested (filter : option SourceType) (source : SourceType) : bool :=
  match filter with
  | None => true
  | Some wanted => bool_decide (wanted = source)
  end.

(** Modelled from the spec: [extract_search_results(data)], named in the
    guide without its body; the grouped sections web/news/faq become one flat
    list, each record keeping its source type, and the sections the caller
    did not request are dropped. *)
Definition extract_search_results (filter : option SourceType)
    (data : ProviderPayload) : list ResultRecord :=
  (if requested filter Web then tag Web <$> web_results data else []) ++
  (if requested filter News then tag News <$> news_results data else []) ++
  (if requested filter Faq then tag Faq <$> faq_results data else []).

Definition result_set (rs : list ResultRecord) : ResultSet :=
  mkResultSet rs None 0 (length rs) false.

(** Modelled from the spec: what the client makes of one transport outcome,
    a typed error or the parsed result set. *)
Definition interpret (request : SearchRequest) (t : Transport)
    : BackendError + ResultSet :=
  match t with
  | Timeout => inl (mkError Unavailable "Request timed out")
  | ConnectionFailure => inl (mkError Unavailable "Connection failed")
  | HttpResponse status body =>
      match classify_status status with
      | Some k => inl (mkError k (status_detail status))
      | None =>
          match body with
          | NotJson => inl (mkError Malformed "Response is not valid JSON")
          | SchemaMismatch => inl (mkError Malformed "Unexpected response format")
          | Grouped data =>
              inr (result_set (extract_search_results (result_filter request) data))
          end
      end
  end.

(** The reply the provider has for the next outbound call, and the world
    once that call is over. *)
Definition reply_to (request : SearchRequest) (w : World) : Reply :=
  provider w (length (calls w)) (mkCall (api_key w) request).

Definition after_call (request : SearchRequest) (w : World) : World :=
  with_clock (clock w + delay (reply_to request w))
             (with_calls (calls w ++ [mkCall (api_key w) request]) w).

(** The HTTP GET itself: the call leaves with the credential in its header,
    the provider answers after [delay], and the call is on record. *)
Definition http_get (request : SearchRequest) : M Transport :=
  key ← gets api_key;
  n ← gets (λ w, length (calls w));
  answer ← gets (λ w, provider w n (mkCall key request));
  modify (λ w, with_calls (calls w ++ [mkCall key request]) w);;
  advance (delay answer);;
  mret (transport answer).

(** Modelled from the spec: [execute(request)], the contract of the search
    backend client ([make_brave_request] followed by
    [extract_search_results] in the guide). *)
Definition execute (request : SearchRequest) : M ResultSet :=
  t ← http_get request;
  match interpret request t with
  | inl e => raise (BraveSearchError e)
  | inr results => mret results
  end.

Definition show_option (o : option string) : string := default "-" o.

Definition show_freshness (f : option Freshness) : string :=
  match f with
  | Some PD => "pd" | Some PW => "pw" | Some PM => "pm" | Some PY => "py"
  | None => "-"
  end.

Definition show_source (s : option SourceType) : string :=
  match s with
  | Some Web => "web" | Some News => "news" | Some Faq => "faq"
  | None => "-"
  end.

(** [cache_key = f"operation:{param1}:{param2}"], over all the parameters of
    the request. *)
Definition cache_key (operation : string) (request : SearchRequest) : string :=
  operation +:+ ":" +:+ query request
    +:+ ":" +:+ pretty (count request)
    +:+ ":" +:+ pretty (offset request)
    +:+ ":" +:+ show_option (country request)
    +:+ ":" +:+ show_option (search_lang request)
    +:+ ":" +:+ show_freshness (freshness request)
    +:+ ":" +:+ show_source (result_filter request).

(** A request served through the cache, as the caching pattern has it. *)
Definition search (operation : string) (request : SearchRequest) : M ResultSet :=
  Cache.cached (cache_key operation request) (execute request).

(** The same request issued again and again, [gaps] giving the time that
    passes before each repetition. *)
Fixpoint repeat_search (operation : string) (request : SearchRequest)
    (gaps : list Z) : M (list ResultSet) :=
  match gaps with
  | [] => mret []
  | d :: rest =>
      advance d;;
      r ← search operation request;
      rs ← repeat_search operation request rest;
      mret (r :: rs)
  end.

(** Every repetition falls strictly within [ttl] of the moment the entry
    was stored, [elapsed] being the time gone by so far. *)
Fixpoint all_within (ttl elapsed : Z) (gaps : list Z) : Prop :=
  match gaps with
  | [] => True
  | d :: rest => elapsed + d < ttl ∧ all_within ttl (elapsed + d) rest
  end.

End Backend.

(** ** Strategy orchestrator *)

Module Orchestrator.

Import Backend.

Definition default_count : Z := 10.

(** The quotation mark of the exact-phrase strategy. *)
Definition quote : string :=
  String (Ascii.Ascii false true false false false true false false) EmptyString.

(** The [strategies] list of the multi-strategy pattern (guide lines
    219-223). *)
Definition strategies (query : string) : list Strategy :=
  [ mkStrategy query ∅;
    mkStrategy (quote +:+ query +:+ quote) ∅;
    mkStrategy query {[ "freshness" := "py" ]} ].

Definition freshness_of_string (s : string) : option Freshness :=
  if bool_decide (s = "pd") then Some PD
  else if bool_decide (s = "pw") then Some PW
  else if bool_decide (s = "pm") then Some PM
  else if bool_decide (s = "py") then Some PY
  else None.

Definition strategy_request (strategy : Strategy) : SearchRequest :=
  mkRequest (s_query strategy) None None
            (s_params strategy !! "freshness" ≫= freshness_of_string)
            None default_count 0.

Definition produced_by (strategy : Strategy) (r : ResultSet) : ResultSet :=
  mkResultSet (records r) (Some strategy) (attemptCount r) (totalAvailable r)
              (thresholdNotMet r).

Definition result_count (r : ResultSet) : Z := Z.of_nat (length (records r)).

(** Modelled from the spec: [result_is_good_enough(result)], called by the
    loop of the guide and not shown; a result meets the threshold when it has
    at least [resultThreshold] records. *)
Definition result_is_good_enough (result_threshold : Z) (result : ResultSet) : bool :=
  bool_decide (result_threshold ≤ result_count result).

(** Modelled from the spec: [try_strategy(strategy)], called by the loop of
    the guide and not shown; the cache key is computed, a hit returns the
    cached result set, which carries the strategy that produced it, and a miss
    calls the backend client and caches the result. *)
Definition try_strategy (strategy : Strategy) : M ResultSet :=
  let request := strategy_request strategy in
  Cache.cached (cache_key "smart_search" request)
               (result ← execute request; mret (produced_by strategy result)).

Definition exn_message (e : Exn) : string :=
  match e with
  | BraveSearchError b => detail b
  | OtherException _ message => message
  end.

(** What Python raises when a name that was never assigned is read. *)
Definition name_error (name : string) : Exn :=
  OtherException "NameError" ("name '" +:+ name +:+ "' is not defined").

(** The loop of the multi-strategy pattern (guide lines 225-230), over the
    two helpers it calls: [for attempt, strategy in enumerate(strategies):
    result = await try_strategy(strategy); if result_is_good_enough(result):
    return result] and, after the loop, [return best_result_so_far].  The
    index [attempt] is bound and not used; the loop has no handler, so an
    exception of [try_strategy] leaves it; [best_result_so_far] is assigned
    nowhere in the pattern, so reading it raises [NameError]. *)
Fixpoint smart_loop (try_strategy : Strategy → M ResultSet)
    (result_is_good_enough : ResultSet → bool) (remaining : list Strategy)
    : M ResultSet :=
  match remaining with
  | [] => raise (name_error "best_result_so_far")
  | strategy :: rest =>
      result ← try_strategy strategy;
      if result_is_good_enough result then mret result
      else smart_loop try_strategy result_is_good_enough rest
  end.

(** [smart_search(query, max_attempts, result_threshold)], with the
    parameters of the tool's docstring, around the pattern: the loop runs
    over the whole strategy list, in which [max_attempts] does not occur;
    [result_threshold] enters through [result_is_good_enough]. *)
Definition smart_search (query : string) (max_attempts : nat)
    (result_threshold : Z) : M ResultSet :=
  smart_loop try_strategy (result_is_good_enough result_threshold)
             (strategies query).

(** The strategies of a list tried one after the other, each returning, as
    a reference for what the strategies before a given one yield in a run. *)
Fixpoint try_all (try_strategy : Strategy → M ResultSet)
    (remaining : list Strategy) : M (list ResultSet) :=
  match remaining with
  | [] => mret []
  | strategy :: rest =>
      result ← try_strategy strategy;
      results ← try_all try_strategy rest;
      mret (result :: results)
  end.

(** *** Research *)

Inductive Depth := Light | Medium | Deep.

Inductive SectionKind := WebSection | NewsSection | ExtraSection.

Record ResearchSection := mkSection {
  section_label : string;
  section_records : list ResultRecord;
  error_note : option string;
}.

(** Modelled from the spec: light is one web call, medium is web and news,
    deep is web, news and the additional configured source; news is optional
    and, as the docstring of the tool has it, [include_news] says whether
    news articles are included and [include_academic] whether the academic
    source, which is the additional one, is. *)
Definition section_kinds (depth : Depth) (include_academic include_news : bool)
    : list SectionKind :=
  let news := if include_news then [NewsSection] else [] in
  let extra := if include_academic then [ExtraSection] else [] in
  match depth with
  | Light => [WebSection]
  | Medium => WebSection :: news
  | Deep => WebSection :: news ++ extra
  end.

(** Modelled from the spec: [timeRange] ("recent", "year", "all" in the
    tool's docstring) is mapped to the nearest supported freshness filter. *)
Definition freshness_of_time_range (time_range : string) : option Freshness :=
  if bool_decide (time_range = "recent") then Some PM
  else if bool_decide (time_range = "year") then Some PY
  else None.

Definition label_of (extra : ExtraSource) (k : SectionKind) : string :=
  match k with
  | WebSection => "web"
  | NewsSection => "news"
  | ExtraSection => extra_label extra
  end.

Definition section_request (extra : ExtraSource) (topic time_range : string)
    (k : SectionKind) : SearchRequest :=
  let fresh := freshness_of_time_range time_range in
  match k with
  | WebSection => mkRequest topic None None fresh (Some Web) default_count 0
  | NewsSection => mkRequest topic None None fresh (Some News) default_count 0
  | ExtraSection =>
      mkRequest (extra_query extra topic) None None fresh (extra_filter extra)
                default_count 0
  end.



(** Modelled from the spec: one section of a research; an error of its call
    is caught and reported as an empty section with an error note. *)
Definition research_section (topic time_range : string) (k : SectionKind)
    : M ResearchSection :=
  extra ← gets extra_source;
  o ← attempt (execute (section_request extra topic time_range k));
  match o with
  | Returned result => mret (mkSection (label_of extra k) (records result) None)
  | Raised e => mret (mkSection (label_of extra k) [] (Some (exn_message e)))
  end.

Fixpoint research_sections (topic time_range : string) (ks : list SectionKind)
    : M (list ResearchSection) :=
  match ks with
  | [] => mret []
  | k :: rest =>
      section ← research_section topic time_range k;
      sections ← research_sections topic time_range rest;
      mret (section :: sections)
  end.

(** Modelled from the spec: [researchSearch(topic, depth, includeAcademic,
    includeNews, timeRange)], one section per source that the depth and the
    two flags select, in the order web, news, additional source. *)
Definition research_search (topic : string) (depth : Depth)
    (include_academic include_news : bool) (time_range : string)
    : M (list ResearchSection) :=
  research_sections topic time_range
    (section_kinds depth include_academic include_news).

End Orchestrator.

(** ** Tool facade *)

Module Facade.

Import Backend Orchestrator.

Inductive Payload :=
  | Results (r : ResultSet)
  | Sections (s : list ResearchSection).

(** What a tool hands back to the agent runtime: its result, or the mapping
    [{"error": message}]. *)
Inductive ToolResult :=
  | Success (p : Payload)
  | ErrorObject (error : string).

(** Truth value of a string argument that may be missing: [None] and the
    empty string are false. *)
Definition truthy (param : option string) : bool :=
  match param with
  | Some s => negb (bool_decide (s = EmptyString))
  | None => false
  end.

(** The error handling pattern (guide lines 189-197). *)
Definition error_handling_pattern {A} (api_operation : M A)
    (success_response : A → ToolResult) : M ToolResult :=
  o ← attempt api_operation;
  match o with
  | Returned result => mret (success_response result)
  | Raised (BraveSearchError e) =>
      logger_error ("Specific error context: " +:+ detail e);;
      mret (ErrorObject "User-friendly error message")
  | Raised (OtherException _ message) =>
      logger_error ("Unexpected error: " +:+ message);;
      mret (ErrorObject "General error message")
  end.

(** The tool template (guide lines 86-128); [make_brave_request] stands for
    the API call of the tool. *)
Definition new_tool_name (param1 : option string) (param2 : Z)
    (make_brave_request : M ResultSet) : M ToolResult :=
  if negb (truthy param1) then mret (ErrorObject "param1 is required")
  else
    let cache_key := "tool_name:" +:+ default EmptyString param1 +:+ ":" +:+ pretty param2 in
    hit ← Cache.get cache_key;
    match hit with
    | Some cached_result => mret (Success (Results cached_result))
    | None =>
        o ← attempt (result ← make_brave_request;
                     Cache.put cache_key result;;
                     mret result);
        match o with
        | Returned result => mret (Success (Results result))
        | Raised (BraveSearchError e) =>
            logger_error ("Tool failed: " +:+ detail e);;
            mret (ErrorObject (detail e))
        | Raised e => raise e
        end
    end.

(** The four operations the facade exposes, with their parameters. *)
Inductive ToolCall :=
  | WebSearch (query : option string) (count offset : Z)
      (country search_lang : option string) (freshness : option Freshness)
  | NewsSearch (query : option string) (count offset : Z)
      (country search_lang : option string) (freshness : option Freshness)
  | SmartSearch (query : option string) (max_attempts : nat) (result_threshold : Z)
  | ResearchSearch (topic : option string) (depth : Depth)
      (include_academic include_news : bool) (time_range : string).

Definition required_name (call : ToolCall) : string :=
  match call with
  | ResearchSearch _ _ _ _ _ => "topic"
  | _ => "query"
  end.

Definition required_value (call : ToolCall) : option string :=
  match call with
  | WebSearch q _ _ _ _ _ => q
  | NewsSearch q _ _ _ _ _ => q
  | SmartSearch q _ _ => q
  | ResearchSearch t _ _ _ _ => t
  end.

(** Modelled from the spec: what each operation maps to, once its required
    argument [q] is known to be there. *)
Definition operation (call : ToolCall) (q : string) : M Payload :=
  match call with
  | WebSearch _ n off c l f =>
      r ← search "web_search" (mkRequest q c l f (Some Web) n off); mret (Results r)
  | NewsSearch _ n off c l f =>
      r ← search "news_search" (mkRequest q c l f (Some News) n off); mret (Results r)
  | SmartSearch _ max_attempts result_threshold =>
      r ← smart_search q max_attempts result_threshold; mret (Results r)
  | ResearchSearch _ depth academic news time_range =>
      s ← research_search q depth academic news time_range; mret (Sections s)
  end.

(** Modelled from the spec: a registered tool, which the guide describes and
    does not show, in the shape the guide gives its tools (the tool template,
    lines 102-104 and 113-127, and the API call pattern): the input
    validation [if not param1: return {"error": "param1 is required"}], then
    the operation inside [try] with the single handler [except
    BraveSearchError as e], which logs and returns [{"error": str(e)}]. *)
Definition handle (call : ToolCall) : M ToolResult :=
  if negb (truthy (required_value call))
  then mret (ErrorObject (required_name call +:+ " is required"))
  else
    o ← attempt (operation call (default EmptyString (required_value call)));
    match o with
    | Returned result => mret (Success result)
    | Raised (BraveSearchError e) =>
        logger_error ("Tool failed: " +:+ detail e);;
        mret (ErrorObject (detail e))
    | Raised e => raise e
    end.

End Facade.

(** ** Mocked providers *)

Module Examples.

Import Backend Orchestrator.

Definition raw (n : nat) : RawRecord :=
  mkRaw ("result " +:+ pretty n) ("https://example.com/" +:+ pretty n)
        EmptyString EmptyString EmptyString "en".

Definition web_payload (n : nat) : ProviderPayload :=
  mkPayload (raw <$> seq 0 n) [] [].

Definition ok_reply (n : nat) : Reply :=
  mkReply 250000 (HttpResponse 200 (Grouped (web_payload n))).

Definition academic : ExtraSource :=
  mkExtra "academic" (λ topic, topic +:+ " research paper") None.

(** The mock of the end-to-end example: no record for the query as given,
    five for the exact phrase, two under the time filter. *)
Definition rust_provider (n : nat) (c : OutboundCall) : Reply :=
  let r := params c in
  if bool_decide (freshness r = Some PY) then ok_reply 2
  else if bool_decide (query r = "rust ownership") then ok_reply 0
  else ok_reply 5.

Definition rust_world : World :=
  fresh_world "BSA-credential" academic rust_provider 1700000000000000.


(** A provider that is down for the query as given and has two records for
    anything else. *)
Definition flaky_provider (n : nat) (c : OutboundCall) : Reply :=
  let r := params c in
  if bool_decide (query r = "rust ownership" ∧ freshness r = None)
  then mkReply 100000 (HttpResponse 503 NotJson)
  else ok_reply 2.

Definition flaky_world : World :=
  fresh_world "BSA-credential" academic flaky_provider 1700000000000000.



(** A provider that answers every call with the transport outcome [t]. *)
Definition replying (t : Transport) : World :=
  fresh_world "BSA-credential" academic (λ _ _, mkReply 100000 t) 1700000000000000.

Definition plain_request : SearchRequest :=
  mkRequest "rust ownership" None None None None 10 0.

(** A provider whose news endpoint is down. *)
Definition news_down (n : nat) (c : OutboundCall) : Reply :=
  if bool_decide (result_filter (params c) = Some News)
  then mkReply 100000 (HttpResponse 503 NotJson)
  else ok_reply 3.

Definition news_down_world : World :=
  fresh_world "BSA-credential" academic news_down 1700000000000000.

End Examples.

(** ** Further patterns of the guide *)

Module Patterns.

Import Facade.

(** [cache_key = f"tool_name:{param1}:{param2}"] of the tool template
    (guide line 107), [param1] a string and [param2] an integer. *)
Definition tool_cache_key (param1 : string) (param2 : Z) : string :=
  "tool_name:" +:+ param1 +:+ ":" +:+ pretty param2.

(** The separator of the cache keys, and whether it occurs in a string. *)
Definition colon : Ascii.ascii :=
  Ascii.Ascii false true false true true true false false.

Fixpoint has_colon (s : string) : bool :=
  match s with
  | EmptyString => false
  | String c rest => bool_decide (c = colon) || has_colon rest
  end.

(** The API call pattern (guide lines 487-493): [try: data = await
    make_brave_request(endpoint, params, session); return
    process_results(data)] with the one handler [except BraveSearchError as
    e: return {"error": str(e)}]. *)
Definition api_call_pattern {A} (make_brave_request : M A)
    (process_results : A → ToolResult) : M ToolResult :=
  o ← attempt (data ← make_brave_request; mret (process_results data));
  match o with
  | Returned response => mret response
  | Raised (BraveSearchError e) => mret (ErrorObject (detail e))
  | Raised e => raise e
  end.

End Patterns.

(** * Properties *)

(** ** Running a coroutine *)

Section Running.

Context {A B : Type}.

Lemma run_ret (a : A) w : run (mret a) w = (Returned a, w).
Proof. reflexivity. Qed.

Lemma run_bind (m : M A) (f : A → M B) w :
  run (m ≫= f) w =
  match run m w with
  | (Returned a, w') => run (f a) w'
  | (Raised e, w') => (Raised e, w')
  end.
Proof. reflexivity. Qed.

Lemma run_bind_returned (m : M A) (f : A → M B) w a w' :
  run m w = (Returned a, w') → run (m ≫= f) w = run (f a) w'.
Proof. intros H. rewrite run_bind, H. reflexivity. Qed.

Lemma run_attempt (m : M A) w :
  run (attempt m) w = (Returned (run m w).1, (run m w).2).
Proof. unfold run, attempt. destruct (m w); reflexivity. Qed.

Lemma run_gets (f : World → A) w : run (gets f) w = (Returned (f w), w).
Proof. reflexivity. Qed.

End Running.

Lemma run_modify f w : run (modify f) w = (Returned (), f w).
Proof. reflexivity. Qed.

(** ** Cache *)

Lemma get_run k w :
  run (Cache.get k) w =
  (Returned (match search_cache w !! k with
             | Some (v, stored) =>
                 if bool_decide (clock w - stored < cache_ttl w) then Some v else None
             | None => None
             end), w).
Proof.
  unfold Cache.get. rewrite run_bind, run_gets.
  destruct (search_cache w !! k) as [[v stored]|]; [|reflexivity].
  unfold Cache.is_cache_valid, now, run, gets, mbind, M_bind, mret, M_ret.
  destruct (bool_decide _); reflexivity.
Qed.

Lemma put_run k v w :
  run (Cache.put k v) w =
  (Returned (), with_cache (<[k := (v, clock w)]> (search_cache w)) w).
Proof. reflexivity. Qed.

Lemma get_miss k w :
  search_cache w !! k = None → run (Cache.get k) w = (Returned None, w).
Proof. intros H. rewrite get_run, H. reflexivity. Qed.

Lemma get_fresh k v stored w :
  search_cache w !! k = Some (v, stored) →
  clock w - stored < cache_ttl w →
  run (Cache.get k) w = (Returned (Some v), w).
Proof.
  intros H Hlt. rewrite get_run, H. rewrite bool_decide_eq_true_2 by done.
  reflexivity.
Qed.

Lemma get_expired k v stored w :
  search_cache w !! k = Some (v, stored) →
  cache_ttl w ≤ clock w - stored →
  run (Cache.get k) w = (Returned None, w).
Proof.
  intros H Hge. rewrite get_run, H. rewrite bool_decide_eq_false_2 by lia.
  reflexivity.
Qed.

(** C4: [get(k)] after [put(k, v)] returns [v] while strictly less than the
    configured time-to-live has elapsed; once at least the time-to-live has
    elapsed it returns absent, which is also what it returns for a key that
    was never stored, the world being left as it was in both cases; the
    time-to-live at start-up is one hour. *)
Theorem cache_get_within_ttl (k : string) (v : ResultSet) (d : Z) (w : World) :
  let later := (run (Cache.put k v;; advance d) w).2 in
  (d < cache_ttl w → run (Cache.get k) later = (Returned (Some v), later)) ∧
  (cache_ttl w ≤ d →
     run (Cache.get k) later = (Returned None, later) ∧
     ∀ never : World, search_cache never !! k = None →
       run (Cache.get k) never = (Returned None, never)) ∧
  (∀ key extra p t,
     cache_ttl (fresh_world key extra p t) = 60 * 60 * 1000000).
Proof.
  intros later.
  assert (Hentry : search_cache later !! k = Some (v, clock w)).
  { subst later. simpl. apply lookup_insert_eq. }
  assert (Hclock : clock later = clock w + d) by reflexivity.
  assert (Httl : cache_ttl later = cache_ttl w) by reflexivity.
  split; [|split].
  - intros Hlt. apply (get_fresh _ _ _ _ Hentry). lia.
  - intros Hge. split.
    + apply (get_expired _ _ _ _ Hentry). lia.
    + intros never. apply get_miss.
  - reflexivity.
Qed.

Lemma cache_get_within_ttl_witness :
  let w := fresh_world "key" (mkExtra "extra" id None)
             (λ _ _, mkReply 0 Timeout) 0 in
  let v := Backend.result_set [] in
  run (Cache.get "k") (run (Cache.put "k" v;; advance 5) w).2
    = (Returned (Some v), (run (Cache.put "k" v;; advance 5) w).2) ∧
  run (Cache.get "k") (run (Cache.put "k" v;; advance one_hour) w).2
    = (Returned None, (run (Cache.put "k" v;; advance one_hour) w).2).
Proof.
  intros w v. split.
  - apply (proj1 (cache_get_within_ttl "k" v 5 w)). simpl. unfold one_hour. lia.
  - refine (proj1 (proj1 (proj2 (cache_get_within_ttl "k" v one_hour w)) _)).
    simpl. unfold one_hour. lia.
Defined.

(** C10: a lookup leaves the world, and so the cache, exactly as it was,
    whether the key is missing, stored and valid, or stored and expired; the
    store changes by [put], which overwrites the entry of its key, and by
    [clear], which empties it. *)
Theorem cache_get_is_read_only (k : string) (w : World) :
  (run (Cache.get k) w).2 = w ∧
  (∀ k' v, search_cache (run (Cache.put k' v) w).2
           = <[k' := (v, clock w)]> (search_cache w)) ∧
  search_cache (run Cache.clear w).2 = ∅.
Proof.
  split; [|split].
  - rewrite get_run. reflexivity.
  - intros k' v. reflexivity.
  - reflexivity.
Qed.

(** ** Search backend client *)

Lemma http_get_run request w :
  run (Backend.http_get request) w
  = (Returned (transport (Backend.reply_to request w)), Backend.after_call request w).
Proof. reflexivity. Qed.

Lemma execute_run request w :
  run (Backend.execute request) w
  = (match Backend.interpret request (transport (Backend.reply_to request w)) with
     | inl e => Raised (BraveSearchError e)
     | inr results => Returned results
     end, Backend.after_call request w).
Proof.
  unfold Backend.execute. rewrite run_bind, http_get_run.
  destruct (Backend.interpret _ _); reflexivity.
Qed.

Lemma cached_hit k m v w :
  run (Cache.get k) w = (Returned (Some v), w) →
  run (Cache.cached k m) w = (Returned v, w).
Proof. intros H. unfold Cache.cached. rewrite run_bind, H. reflexivity. Qed.

Lemma cached_miss k m w :
  run (Cache.get k) w = (Returned None, w) →
  run (Cache.cached k m) w =
  match run m w with
  | (Returned v, w') =>
      (Returned v, with_cache (<[k := (v, clock w')]> (search_cache w')) w')
  | (Raised e, w') => (Raised e, w')
  end.
Proof.
  intros H. unfold Cache.cached. rewrite run_bind, H, run_bind.
  destruct (run m w) as [[v|e] w']; reflexivity.
Qed.

Lemma repeat_search_hits operation request first stored gaps :
  ∀ w elapsed,
    search_cache w !! Backend.cache_key operation request = Some (first, stored) →
    clock w = stored + elapsed →
    Backend.all_within (cache_ttl w) elapsed gaps →
    ∃ w', run (Backend.repeat_search operation request gaps) w
          = (Returned (replicate (length gaps) first), w')
          ∧ calls w' = calls w.
Proof.
  induction gaps as [|d gaps IH]; intros w elapsed Hentry Hclock Hwithin.
  - exists w. split; reflexivity.
  - destruct Hwithin as [Hd Hrest].
    set (w1 := with_clock (clock w + d) w).
    destruct (IH w1 (elapsed + d)) as (w' & Hrun & Hcalls).
    { exact Hentry. }
    { simpl. lia. }
    { exact Hrest. }
    exists w'. split; [|exact Hcalls].
    cbn [Backend.repeat_search].
    rewrite run_bind. unfold advance at 1. rewrite run_modify. fold w1.
    rewrite run_bind. unfold Backend.search.
    rewrite (cached_hit _ _ first).
    + rewrite run_bind, Hrun. reflexivity.
    + apply (get_fresh _ _ stored); [exact Hentry|]. simpl. lia.
Qed.

(** C5: when a request has gone to the backend and come back with a result
    set, the same request issued again, any number of times and each time
    within the time-to-live of that first call, returns that very result set
    from the cache; over all these calls the backend was called once. *)
Theorem repeated_search_served_from_cache (operation : string)
    (request : SearchRequest) (gaps : list Z) (w w1 : World) (first : ResultSet) :
  run (Cache.get (Backend.cache_key operation request)) w = (Returned None, w) →
  run (Backend.search operation request) w = (Returned first, w1) →
  Backend.all_within (cache_ttl w) 0 gaps →
  ∃ w2, run (Backend.repeat_search operation request gaps) w1
        = (Returned (replicate (length gaps) first), w2)
        ∧ calls w2 = (calls w ++ [mkCall (api_key w) request])%list.
Proof.
  intros Hmiss Hfirst Hwithin.
  unfold Backend.search in Hfirst. rewrite (cached_miss _ _ _ Hmiss) in Hfirst.
  rewrite execute_run in Hfirst.
  destruct (Backend.interpret _ _) as [e|results]; [discriminate|].
  injection Hfirst as -> <-.
  set (w0 := Backend.after_call request w).
  destruct (repeat_search_hits operation request first (clock w0) gaps
              (with_cache (<[Backend.cache_key operation request := (first, clock w0)]>
                             (search_cache w0)) w0) 0)
    as (w2 & Hrun & Hcalls).
  - simpl. apply lookup_insert_eq.
  - simpl. lia.
  - exact Hwithin.
  - exists w2. split; [exact Hrun|]. rewrite Hcalls. reflexivity.
Qed.

Lemma repeated_search_served_from_cache_witness :
  let w := Examples.replying (HttpResponse 200 (Grouped (Examples.web_payload 3))) in
  let out := run (Backend.search "web_search" Examples.plain_request) w in
  ∃ first w2,
    out.1 = Returned first ∧
    run (Backend.repeat_search "web_search" Examples.plain_request
           [1000000; 3598000000]) out.2
    = (Returned [first; first], w2) ∧
    calls w2 = [mkCall "BSA-credential" Examples.plain_request].
Proof.
  intros w out.
  pose (first := match out.1 with
                 | Returned r => r
                 | Raised _ => Backend.result_set []
                 end).
  destruct (repeated_search_served_from_cache "web_search" Examples.plain_request
              [1000000; 3598000000] w out.2 first) as (w2 & Hrun & Hcalls).
  - vm_compute. reflexivity.
  - vm_compute. reflexivity.
  - repeat split; vm_compute; reflexivity.
  - exists first, w2. split; [vm_compute; reflexivity|].
    split; [exact Hrun|exact Hcalls].
Defined.

(** ** Strategy orchestrator *)

Import Backend Orchestrator.

Section Loop.

Variable try : Strategy → M ResultSet.
Variable good : ResultSet → bool.

Lemma try_all_cons s ss w results w' :
  run (try_all try (s :: ss)) w = (Returned results, w') →
  ∃ r rs w1, results = r :: rs
             ∧ run (try s) w = (Returned r, w1)
             ∧ run (try_all try ss) w1 = (Returned rs, w').
Proof.
  cbn [try_all]. rewrite run_bind.
  destruct (run (try s) w) as [[r|e] w1] eqn:Hs; [|discriminate].
  rewrite run_bind.
  destruct (run (try_all try ss) w1) as [[rs|e] w2] eqn:Hss; [|discriminate].
  rewrite run_ret. intros [= <- <-].
  exists r, rs, w1. split; [reflexivity|]. split; [reflexivity|exact Hss].
Qed.

(** The loop over strategies that all return and fall short is the loop
    over what follows them. *)
Lemma smart_loop_skip pre rest :
  ∀ w results w1,
    run (try_all try pre) w = (Returned results, w1) →
    Forall (λ r, good r = false) results →
    run (smart_loop try good (pre ++ rest)) w = run (smart_loop try good rest) w1.
Proof.
  induction pre as [|s pre IH]; intros w results w1 Hall Hshort.
  - injection Hall as <- <-. reflexivity.
  - apply try_all_cons in Hall as (r & rs & w0 & -> & Hs & Hrest).
    apply Forall_cons in Hshort as [Hr Hrs].
    cbn [app smart_loop]. rewrite (run_bind_returned _ _ _ _ _ Hs), Hr.
    exact (IH _ _ _ Hrest Hrs).
Qed.


(** When every strategy returns and falls short, the loop ends on the name
    that was never assigned. *)
Lemma smart_loop_exhausted ss w results w' :
  run (try_all try ss) w = (Returned results, w') →
  Forall (λ r, good r = false) results →
  run (smart_loop try good ss) w = (Raised (name_error "best_result_so_far"), w').
Proof.
  intros Hall Hshort. rewrite <- (app_nil_r ss).
  rewrite (smart_loop_skip _ _ _ _ _ Hall Hshort). reflexivity.
Qed.

(** An exception of a strategy leaves the loop as it is: the strategies
    after it are not tried. *)
Lemma smart_loop_aborts pre s post w results w1 e w2 :
  run (try_all try pre) w = (Returned results, w1) →
  Forall (λ r, good r = false) results →
  run (try s) w1 = (Raised e, w2) →
  run (smart_loop try good (pre ++ s :: post)) w = (Raised e, w2).
Proof.
  intros Hall Hshort Hs.
  rewrite (smart_loop_skip _ _ _ _ _ Hall Hshort).
  cbn [smart_loop]. rewrite run_bind, Hs. reflexivity.
Qed.

End Loop.






Example smart_search_aborts_when_the_provider_is_down :
  let out := run (smart_search "rust ownership" 3 2) Examples.flaky_world in
  out.1 = Raised (BraveSearchError
                    (mkError Unavailable "API request failed with status 503")) ∧
  length (calls out.2) = 1%nat.
Proof. split; vm_compute; reflexivity. Qed.

(** ** Research *)








Example deep_research_with_news_down :
  let out := run (research_search "rust ownership" Deep true true "year")
                 Examples.news_down_world in
  ∃ web news extra,
    out.1 = Returned [web; news; extra] ∧
    (section_label web, length (section_records web), error_note web)
      = ("web", 3%nat, None) ∧
    (section_label news, section_records news, error_note news)
      = ("news", [], Some "API request failed with status 503") ∧
    (section_label extra, length (section_records extra), error_note extra)
      = ("academic", 3%nat, None) ∧
    length (calls out.2) = 3%nat.
Proof. eexists _, _, _. repeat split; vm_compute; reflexivity. Qed.

(** ** Error kinds of the backend client *)

Lemma execute_failure request w e :
  interpret request (transport (reply_to request w)) = inl e →
  (run (execute request) w).1 = Raised (BraveSearchError e).
Proof. intros H. rewrite execute_run, H. reflexivity. Qed.

Lemma interpret_status request status body k :
  classify_status status = Some k →
  interpret request (HttpResponse status body)
  = inl (mkError k (status_detail status)).
Proof. intros H. simpl. rewrite H. reflexivity. Qed.

Lemma classify_success status :
  200 ≤ status < 300 → classify_status status = None.
Proof. intros H. unfold classify_status. rewrite bool_decide_eq_true_2; done. Qed.

Ltac classify :=
  unfold classify_status;
  repeat (case_bool_decide; try lia); try reflexivity.

(** C7: [execute] raises the typed error whose kind the cause of the failure
    determines: Unauthorized for the statuses 401 and 403, RateLimited for
    429, InvalidRequest for any other 4xx, Unavailable for 5xx, a timeout or
    a connection failure, Malformed for a successful response that is not
    JSON or not of the expected shape; a well-formed response without any
    extractable record is returned as an empty result set. *)
Theorem execute_error_kinds (request : SearchRequest) (w : World) :
  let t := transport (reply_to request w) in
  let out := (run (execute request) w).1 in
  let fails k := ∃ d, out = Raised (BraveSearchError (mkError k d)) in
  (∀ s body, t = HttpResponse s body → s = 401 ∨ s = 403 → fails Unauthorized) ∧
  (∀ body, t = HttpResponse 429 body → fails RateLimited) ∧
  (∀ s body, t = HttpResponse s body → 400 ≤ s < 500 →
             s ≠ 401 → s ≠ 403 → s ≠ 429 → fails InvalidRequest) ∧
  (∀ s body, t = HttpResponse s body → 500 ≤ s < 600 → fails Unavailable) ∧
  (t = Timeout ∨ t = ConnectionFailure → fails Unavailable) ∧
  (∀ s, 200 ≤ s < 300 →
        t = HttpResponse s NotJson ∨ t = HttpResponse s SchemaMismatch →
        fails Malformed) ∧
  (∀ s data, 200 ≤ s < 300 → t = HttpResponse s (Grouped data) →
             extract_search_results (result_filter request) data = [] →
             out = Returned (result_set [])).
Proof.
  intros t out fails.
  assert (Hstatus : ∀ s body k, t = HttpResponse s body →
                      classify_status s = Some k → fails k).
  { intros s body k Ht Hk. eexists. apply execute_failure.
    fold t. rewrite Ht. apply interpret_status, Hk. }
  repeat split.
  - intros s body Ht Hs. apply (Hstatus _ _ _ Ht). destruct Hs; subst s; reflexivity.
  - intros body Ht. apply (Hstatus _ _ _ Ht). reflexivity.
  - intros s body Ht Hs H401 H403 H429. apply (Hstatus _ _ _ Ht). classify.
  - intros s body Ht Hs. apply (Hstatus _ _ _ Ht). classify.
  - intros [Ht|Ht]; eexists; apply execute_failure; fold t; rewrite Ht; reflexivity.
  - intros s Hs [Ht|Ht]; eexists; apply execute_failure; fold t; rewrite Ht;
      simpl; rewrite (classify_success _ Hs); reflexivity.
  - intros s data Hs Ht Hnone. subst out. rewrite execute_run. fold t. rewrite Ht.
    simpl. rewrite (classify_success _ Hs), Hnone. reflexivity.
Qed.

Lemma execute_error_kinds_witness :
  let out t := (run (execute Examples.plain_request) (Examples.replying t)).1 in
  let fails t k := ∃ d, out t = Raised (BraveSearchError (mkError k d)) in
  fails (HttpResponse 403 NotJson) Unauthorized ∧
  fails (HttpResponse 429 NotJson) RateLimited ∧
  fails (HttpResponse 422 NotJson) InvalidRequest ∧
  fails (HttpResponse 503 NotJson) Unavailable ∧
  fails Timeout Unavailable ∧
  fails (HttpResponse 200 SchemaMismatch) Malformed ∧
  out (HttpResponse 200 (Grouped (Examples.web_payload 0))) = Returned (result_set []).
Proof.
  intros out fails.
  pose (thm t := execute_error_kinds Examples.plain_request (Examples.replying t)).
  split; [|split; [|split; [|split; [|split; [|split]]]]].
  - refine (proj1 (thm _) 403 NotJson eq_refl _). lia.
  - exact (proj1 (proj2 (thm _)) NotJson eq_refl).
  - refine (proj1 (proj2 (proj2 (thm _))) 422 NotJson eq_refl _ _ _ _); lia.
  - refine (proj1 (proj2 (proj2 (proj2 (thm _)))) 503 NotJson eq_refl _). lia.
  - refine (proj1 (proj2 (proj2 (proj2 (proj2 (thm _))))) _). left. reflexivity.
  - refine (proj1 (proj2 (proj2 (proj2 (proj2 (proj2 (thm _)))))) 200 _ _);
      [lia|right; reflexivity].
  - refine (proj2 (proj2 (proj2 (proj2 (proj2 (proj2 (thm _))))))
              200 (Examples.web_payload 0) _ eq_refl eq_refl). lia.
Defined.

(** ** Tool facade *)

Import Facade.

Lemma error_handling_pattern_on_error {A} (api_operation : M A) respond w e w1 :
  run api_operation w = (Raised e, w1) →
  ∃ w', run (error_handling_pattern api_operation respond) w
        = (Returned (ErrorObject
                       match e with
                       | BraveSearchError _ => "User-friendly error message"
                       | OtherException _ _ => "General error message"
                       end), w').
Proof.
  intros H. unfold error_handling_pattern. rewrite run_bind, run_attempt, H.
  destruct e; eexists; reflexivity.
Qed.

Lemma error_handling_pattern_total {A} (api_operation : M A) respond w :
  ∃ r w', run (error_handling_pattern api_operation respond) w = (Returned r, w').
Proof.
  destruct (run api_operation w) as [[a|e] w1] eqn:H.
  - unfold error_handling_pattern. rewrite run_bind, run_attempt, H.
    eexists _, _. reflexivity.
  - destruct (error_handling_pattern_on_error _ respond _ _ _ H) as [w' Hw'].
    eauto.
Qed.

(** The parts of C8 that the handlers keep: input validation, and the
    translation of an error of the backend client. *)
Lemma handle_validates (call : ToolCall) (w : World) :
  truthy (required_value call) = false →
  run (handle call) w
  = (Returned (ErrorObject (required_name call +:+ " is required")), w).
Proof. intros Hfalsy. unfold handle. rewrite Hfalsy. reflexivity. Qed.

Lemma handle_backend_error (call : ToolCall) (q : string) (b : BackendError)
    (w w1 : World) :
  required_value call = Some q → q ≠ EmptyString →
  run (operation call q) w = (Raised (BraveSearchError b), w1) →
  run (handle call) w
  = (Returned (ErrorObject (detail b)),
     with_logged (logged w1 ++ ["Tool failed: " +:+ detail b]) w1).
Proof.
  intros Hq Hne Hraised. unfold handle. rewrite Hq. simpl.
  rewrite bool_decide_eq_false_2 by exact Hne. simpl.
  rewrite run_bind, run_attempt, Hraised. reflexivity.
Qed.


(** C9: the tool template catches [BraveSearchError] and nothing else: when
    the API call of the tool raises any other exception, the exception
    leaves the tool instead of coming back as a mapping with the key
    [error]. *)
Theorem new_tool_name_unexpected_exception_escapes :
  run (new_tool_name (Some "rust ownership") 10
         (raise (OtherException "ClientConnectorError" "Cannot connect to host")))
      Examples.rust_world
  = (Raised (OtherException "ClientConnectorError" "Cannot connect to host"),
     Examples.rust_world).
Proof. vm_compute. reflexivity. Qed.

(** The same template does turn an error of the backend client into the
    mapping, and so does the error handling pattern for every exception. *)
Lemma new_tool_name_backend_error (p : string) (n : Z) (b : BackendError) (w : World) :
  p ≠ EmptyString →
  search_cache w !! ("tool_name:" +:+ p +:+ ":" +:+ pretty n) = None →
  ∃ w', run (new_tool_name (Some p) n (raise (BraveSearchError b))) w
        = (Returned (ErrorObject (detail b)), w').
Proof.
  intros Hp Hmiss. unfold new_tool_name. simpl.
  rewrite bool_decide_eq_false_2 by exact Hp. simpl.
  rewrite run_bind, (get_miss _ _ Hmiss). eexists. reflexivity.
Qed.

(** * Further properties of the guide's patterns *)

Import Patterns.

Lemma colon_is_separator : String colon EmptyString = ":".
Proof. reflexivity. Qed.

(** ** The tool template *)

Lemma new_tool_name_run p n (api : M ResultSet) w :
  p ≠ EmptyString →
  run (new_tool_name (Some p) n api) w =
  match (run (Cache.get (tool_cache_key p n)) w).1 with
  | Returned (Some cached_result) => (Returned (Success (Results cached_result)), w)
  | _ =>
      match run api w with
      | (Returned result, w1) =>
          (Returned (Success (Results result)),
           with_cache (<[tool_cache_key p n := (result, clock w1)]> (search_cache w1)) w1)
      | (Raised (BraveSearchError b), w1) =>
          (Returned (ErrorObject (detail b)),
           with_logged (logged w1 ++ ["Tool failed: " +:+ detail b]) w1)
      | (Raised e, w1) => (Raised e, w1)
      end
  end.
Proof.
  intros Hp. unfold new_tool_name, truthy.
  rewrite bool_decide_eq_false_2 by exact Hp.
  match goal with |- _ = ?rhs => change (run (hit ← Cache.get (tool_cache_key p n);
               match hit with
               | Some cached_result => mret (Success (Results cached_result))
               | None =>
                   o ← attempt (result ← api;
                                Cache.put (tool_cache_key p n) result;;
                                mret result);
                   match o with
                   | Returned result => mret (Success (Results result))
                   | Raised (BraveSearchError e) =>
                       logger_error ("Tool failed: " +:+ detail e);;
                       mret (ErrorObject (detail e))
                   | Raised e => raise e
                   end
               end) w = rhs) end.
  rewrite run_bind, get_run. cbn [fst].
  destruct (match search_cache w !! _ with Some _ => _ | None => _ end);
    [reflexivity|].
  rewrite run_bind, run_attempt, run_bind.
  destruct (run api w) as [[result|[b|name message]] w1]; reflexivity.
Qed.

(** X1: the template validates before anything else: with [param1] missing
    or empty it returns the mapping [{"error": "param1 is required"}] and
    leaves the world as it was, whatever the cache holds and whatever the
    API call would do. *)
Theorem new_tool_name_validates_first (param1 : option string) (param2 : Z)
    (api : M ResultSet) (w : World) :
  param1 = None ∨ param1 = Some EmptyString →
  run (new_tool_name param1 param2 api) w
  = (Returned (ErrorObject "param1 is required"), w).
Proof. intros [->| ->]; reflexivity. Qed.

Lemma new_tool_name_validates_first_witness :
  run (new_tool_name (Some EmptyString) 10
         (Backend.execute Examples.plain_request)) Examples.rust_world
  = (Returned (ErrorObject "param1 is required"), Examples.rust_world).
Proof.
  apply (new_tool_name_validates_first (Some EmptyString)). right. reflexivity.
Defined.

(** X2: with an entry under its key that is still valid, the template
    returns the cached result and leaves the world as it was: the API call
    is not made. *)
Theorem new_tool_name_cache_hit (p : string) (n : Z) (api : M ResultSet)
    (w : World) (cached_result : ResultSet) (stored : Z) :
  p ≠ EmptyString →
  search_cache w !! tool_cache_key p n = Some (cached_result, stored) →
  clock w - stored < cache_ttl w →
  run (new_tool_name (Some p) n api) w
  = (Returned (Success (Results cached_result)), w).
Proof.
  intros Hp Hentry Hfresh. rewrite (new_tool_name_run _ _ _ _ Hp).
  rewrite (get_fresh _ _ _ _ Hentry Hfresh). reflexivity.
Qed.

Lemma new_tool_name_cache_hit_witness :
  let v := Backend.result_set [] in
  let w := (run (Cache.put (tool_cache_key "rust ownership" 10) v)
                Examples.rust_world).2 in
  run (new_tool_name (Some "rust ownership") 10
         (raise (OtherException "ClientConnectorError" "Cannot connect to host"))) w
  = (Returned (Success (Results v)), w).
Proof.
  intros v w.
  apply (new_tool_name_cache_hit "rust ownership" 10 _ w v (clock Examples.rust_world)).
  - discriminate.
  - vm_compute. reflexivity.
  - vm_compute. reflexivity.
Defined.

(** X3: on a miss (no entry, or an expired one) and a successful API call,
    the template returns the result and stores it under its key with the
    time read after the call; nothing else of the world the call left is
    changed. *)
Theorem new_tool_name_miss_stores (p : string) (n : Z) (api : M ResultSet)
    (w w1 : World) (result : ResultSet) :
  p ≠ EmptyString →
  run (Cache.get (tool_cache_key p n)) w = (Returned None, w) →
  run api w = (Returned result, w1) →
  run (new_tool_name (Some p) n api) w
  = (Returned (Success (Results result)),
     with_cache (<[tool_cache_key p n := (result, clock w1)]> (search_cache w1)) w1).
Proof.
  intros Hp Hmiss Hapi. rewrite (new_tool_name_run _ _ _ _ Hp), Hmiss, Hapi.
  reflexivity.
Qed.

Lemma new_tool_name_miss_stores_witness :
  let api := Backend.execute Examples.plain_request in
  let w1 := (run api Examples.rust_world).2 in
  run (new_tool_name (Some "rust ownership") 10 api) Examples.rust_world
  = (Returned (Success (Results (Backend.result_set []))),
     with_cache (<[tool_cache_key "rust ownership" 10
                   := (Backend.result_set [], clock w1)]> (search_cache w1)) w1).
Proof.
  intros api w1.
  apply (new_tool_name_miss_stores "rust ownership" 10 api Examples.rust_world w1).
  - discriminate.
  - vm_compute. reflexivity.
  - vm_compute. reflexivity.
Defined.

(** X4: after a call that missed the cache and succeeded, a second call
    with the same two parameters made less than the time-to-live later
    returns the first result and makes no API call, whatever its API call
    would have returned or raised. *)
Theorem new_tool_name_second_call_cached (p : string) (n : Z)
    (api api' : M ResultSet) (d : Z) (w w1 : World) (result : ResultSet) :
  p ≠ EmptyString →
  run (Cache.get (tool_cache_key p n)) w = (Returned None, w) →
  run api w = (Returned result, w1) →
  d < cache_ttl w1 →
  let first := (run (new_tool_name (Some p) n api) w).2 in
  run (advance d;; new_tool_name (Some p) n api') first
  = (Returned (Success (Results result)), with_clock (clock first + d) first).
Proof.
  intros Hp Hmiss Hapi Hd first.
  assert (Hfirst : first = with_cache
            (<[tool_cache_key p n := (result, clock w1)]> (search_cache w1)) w1).
  { unfold first. rewrite (new_tool_name_run _ _ _ _ Hp), Hmiss, Hapi.
    reflexivity. }
  rewrite run_bind. unfold advance at 1. rewrite run_modify.
  rewrite (new_tool_name_run _ _ _ _ Hp).
  erewrite (get_fresh _ result (clock w1)); [reflexivity| |].
  - rewrite Hfirst. simpl. apply lookup_insert_eq.
  - rewrite Hfirst. simpl. lia.
Qed.

Lemma new_tool_name_second_call_cached_witness :
  let api := Backend.execute Examples.plain_request in
  let api' := raise (OtherException "ClientConnectorError" "Cannot connect to host") in
  let first := (run (new_tool_name (Some "rust ownership") 10 api)
                    Examples.rust_world).2 in
  run (advance 1000000;; new_tool_name (Some "rust ownership") 10 api') first
  = (Returned (Success (Results (Backend.result_set []))),
     with_clock (clock first + 1000000) first).
Proof.
  intros api api' first.
  apply (new_tool_name_second_call_cached "rust ownership" 10 api api' 1000000
           Examples.rust_world (run api Examples.rust_world).2).
  - discriminate.
  - vm_compute. reflexivity.
  - vm_compute. reflexivity.
  - vm_compute. reflexivity.
Defined.

(** X5: when the API call of the template raises a [BraveSearchError] on a
    miss, the template returns the mapping with the text of the error, logs
    one line, and stores nothing: the cache is as the call left it. *)
Theorem new_tool_name_failure_not_cached (p : string) (n : Z) (api : M ResultSet)
    (w w1 : World) (b : BackendError) :
  p ≠ EmptyString →
  run (Cache.get (tool_cache_key p n)) w = (Returned None, w) →
  run api w = (Raised (BraveSearchError b), w1) →
  run (new_tool_name (Some p) n api) w
  = (Returned (ErrorObject (detail b)),
     with_logged (logged w1 ++ ["Tool failed: " +:+ detail b]) w1) ∧
  search_cache (run (new_tool_name (Some p) n api) w).2 = search_cache w1.
Proof.
  intros Hp Hmiss Hapi. rewrite (new_tool_name_run _ _ _ _ Hp), Hmiss, Hapi.
  split; reflexivity.
Qed.

Lemma new_tool_name_failure_not_cached_witness :
  let api := Backend.execute Examples.plain_request in
  let w := Examples.replying (HttpResponse 429 NotJson) in
  let w1 := (run api w).2 in
  run (new_tool_name (Some "rust ownership") 10 api) w
  = (Returned (ErrorObject "API request failed with status 429"),
     with_logged (logged w1 ++ ["Tool failed: API request failed with status 429"]) w1) ∧
  search_cache (run (new_tool_name (Some "rust ownership") 10 api) w).2
  = search_cache w1.
Proof.
  intros api w w1.
  apply (new_tool_name_failure_not_cached "rust ownership" 10 api w w1
           (mkError RateLimited "API request failed with status 429")).
  - discriminate.
  - vm_compute. reflexivity.
  - vm_compute. reflexivity.
Defined.

(** X15: a stale entry is never served, not even when the API fails: with
    an entry under its key that has outlived the time-to-live and an API
    call that raises a [BraveSearchError], the template replies with the
    error, and the stale entry is neither returned nor removed. *)
Theorem new_tool_name_no_stale_on_error (p : string) (n : Z) (api : M ResultSet)
    (w w1 : World) (stale : ResultSet) (stored : Z) (b : BackendError) :
  p ≠ EmptyString →
  search_cache w !! tool_cache_key p n = Some (stale, stored) →
  cache_ttl w ≤ clock w - stored →
  run api w = (Raised (BraveSearchError b), w1) →
  (run (new_tool_name (Some p) n api) w).1 = Returned (ErrorObject (detail b)) ∧
  search_cache (run (new_tool_name (Some p) n api) w).2 = search_cache w1.
Proof.
  intros Hp Hentry Hold Hapi.
  rewrite (new_tool_name_run _ _ _ _ Hp).
  rewrite (get_expired _ _ _ _ Hentry Hold), Hapi. split; reflexivity.
Qed.

Lemma new_tool_name_no_stale_on_error_witness :
  let api := Backend.execute Examples.plain_request in
  let stale := Backend.result_set [Backend.tag Web (Examples.raw 0)] in
  let w := (run (Cache.put (tool_cache_key "rust ownership" 10) stale;;
                 advance one_hour)
                (Examples.replying (HttpResponse 503 NotJson))).2 in
  (run (new_tool_name (Some "rust ownership") 10 api) w).1
  = Returned (ErrorObject "API request failed with status 503") ∧
  search_cache (run (new_tool_name (Some "rust ownership") 10 api) w).2
  = search_cache (run api w).2.
Proof.
  intros api stale w.
  apply (new_tool_name_no_stale_on_error "rust ownership" 10 api w (run api w).2
           stale 1700000000000000
           (mkError Unavailable "API request failed with status 503")).
  - discriminate.
  - vm_compute. reflexivity.
  - vm_compute. discriminate.
  - vm_compute. reflexivity.
Defined.

(** *** The cache key of the template *)

Lemma has_colon_pretty_N_go (x : N) :
  ∀ s, has_colon s = false → has_colon (pretty_N_go x s) = false.
Proof.
  induction (N.lt_wf_0 x) as [x _ IH]; intros s Hs.
  assert (x = 0 ∨ 0 < x)%N as [->|Hpos] by lia.
  - rewrite pretty_N_go_0. exact Hs.
  - rewrite pretty_N_go_step by exact Hpos. apply IH.
    + apply N.div_lt; lia.
    + simpl. rewrite Hs, orb_false_r.
      apply bool_decide_eq_false_2.
      unfold pretty_N_char, colon. repeat case_match; discriminate.
Qed.

Lemma has_colon_pretty_N (x : N) : has_colon (pretty x) = false.
Proof.
  unfold pretty, pretty_N. case_decide; [reflexivity|].
  apply has_colon_pretty_N_go. reflexivity.
Qed.

(** The decimal text of an integer holds no separator. *)
Lemma has_colon_pretty_Z (x : Z) : has_colon (pretty x) = false.
Proof.
  destruct x as [|x|x]; [reflexivity| |].
  - apply (has_colon_pretty_N (Npos x)).
  - change (has_colon (String.append "-" (pretty (Npos x))) = false).
    simpl. apply (has_colon_pretty_N (Npos x)).
Qed.

Lemma has_colon_separated (a s : string) : has_colon (a +:+ ":" +:+ s) = true.
Proof.
  induction a as [|c a IH]; simpl.
  - reflexivity.
  - rewrite IH. apply orb_true_r.
Qed.

Lemma separated_inj (a a' s s' : string) :
  has_colon s = false → has_colon s' = false →
  a +:+ ":" +:+ s = a' +:+ ":" +:+ s' → a = a' ∧ s = s'.
Proof.
  intros Hs Hs'. revert a'.
  induction a as [|c a IH]; intros [|c' a'] Heq.
  - change (String colon s = String colon s') in Heq.
    injection Heq as ->. done.
  - change (String colon s = String c' (a' +:+ ":" +:+ s')) in Heq.
    injection Heq as _ ->. rewrite has_colon_separated in Hs. discriminate.
  - change (String c (a +:+ ":" +:+ s) = String colon s') in Heq.
    injection Heq as _ <-. rewrite has_colon_separated in Hs'. discriminate.
  - change (String c (a +:+ ":" +:+ s) = String c' (a' +:+ ":" +:+ s')) in Heq.
    injection Heq as -> Heq. destruct (IH _ Heq) as [-> ->]. done.
Qed.

(** X6: the cache key of the template tells its calls apart: two calls
    have the same key only when they have the same [param1] and the same
    [param2], also when [param1] contains the separator. *)
Theorem tool_cache_key_inj (p p' : string) (n n' : Z) :
  tool_cache_key p n = tool_cache_key p' n' → p = p' ∧ n = n'.
Proof.
  unfold tool_cache_key. intros Heq.
  apply (inj (String.append "tool_name:")) in Heq.
  apply separated_inj in Heq as [-> Hn]; try apply has_colon_pretty_Z.
  split; [reflexivity|]. exact (inj pretty _ _ Hn).
Qed.

Lemma tool_cache_key_inj_witness :
  "rust:ownership" = "rust:ownership" ∧ 10 = 10.
Proof.
  apply (tool_cache_key_inj "rust:ownership" "rust:ownership" 10 10).
  reflexivity.
Defined.

(** ** The caching pattern *)

(** X7: when the operation behind the caching pattern raises on a miss, the
    exception goes through unchanged and nothing is stored: the world is as
    the operation left it, so the next call runs the operation again. *)
Theorem cached_failure_not_stored (k : string) (operation : M ResultSet)
    (w w1 : World) (e : Exn) :
  run (Cache.get k) w = (Returned None, w) →
  run operation w = (Raised e, w1) →
  run (Cache.cached k operation) w = (Raised e, w1).
Proof.
  intros Hmiss Hop. rewrite (cached_miss _ _ _ Hmiss), Hop. reflexivity.
Qed.

Lemma cached_failure_not_stored_witness :
  let w := Examples.replying Timeout in
  let operation := Backend.execute Examples.plain_request in
  run (Cache.cached "web_search:rust ownership:10" operation) w
  = (Raised (BraveSearchError (mkError Unavailable "Request timed out")),
     (run operation w).2).
Proof.
  intros w operation.
  apply (cached_failure_not_stored _ operation w).
  - vm_compute. reflexivity.
  - vm_compute. reflexivity.
Defined.

(** X8: storing under one key does not change what a lookup of another key
    returns. *)
Theorem put_keeps_other_keys (k k' : string) (v : ResultSet) (w : World) :
  k ≠ k' →
  (run (Cache.get k') (run (Cache.put k v) w).2).1 = (run (Cache.get k') w).1.
Proof.
  intros Hne. rewrite !get_run, put_run. simpl.
  rewrite lookup_insert_ne by exact Hne. reflexivity.
Qed.

Lemma put_keeps_other_keys_witness :
  let v := Backend.result_set [] in
  (run (Cache.get "news_search:rust")
       (run (Cache.put "web_search:rust" v) Examples.rust_world).2).1
  = (run (Cache.get "news_search:rust") Examples.rust_world).1.
Proof.
  intros v. apply put_keeps_other_keys. discriminate.
Defined.

(** X9: the last store under a key wins and restarts its time-to-live:
    after two stores under the same key, however long apart, a lookup
    right after the second returns the second value, provided the
    time-to-live is positive. *)
Theorem put_overwrites (k : string) (v1 v2 : ResultSet) (d : Z) (w : World) :
  0 < cache_ttl w →
  (run (Cache.put k v1;; advance d;; Cache.put k v2;; Cache.get k) w).1
  = Returned (Some v2).
Proof.
  intros Hpos.
  rewrite run_bind, put_run, run_bind. unfold advance at 1.
  rewrite run_modify, run_bind, put_run.
  erewrite get_fresh; [reflexivity| |].
  - simpl. apply lookup_insert_eq.
  - simpl. lia.
Qed.

Lemma put_overwrites_witness :
  let old := Backend.result_set [] in
  let new := Backend.result_set [Backend.tag Web (Examples.raw 0)] in
  (run (Cache.put "k" old;; advance (2 * one_hour);; Cache.put "k" new;;
        Cache.get "k") Examples.rust_world).1
  = Returned (Some new).
Proof.
  intros old new. apply put_overwrites. vm_compute. reflexivity.
Defined.

(** X10: after [search_cache.clear()] every lookup misses, whatever was
    stored and however recently, and the caching pattern runs its operation
    again. *)
Theorem clear_forgets (k : string) (operation : M ResultSet) (w : World) :
  run (Cache.clear;; Cache.get k) w = (Returned None, with_cache ∅ w) ∧
  run (Cache.clear;; Cache.cached k operation) w
  = run (result ← operation; Cache.put k result;; mret result) (with_cache ∅ w).
Proof.
  assert (Hmiss : run (Cache.get k) (with_cache ∅ w) = (Returned None, with_cache ∅ w)).
  { apply get_miss. simpl. apply lookup_empty. }
  split.
  - rewrite run_bind. unfold Cache.clear. rewrite run_modify. exact Hmiss.
  - rewrite run_bind. unfold Cache.clear. rewrite run_modify.
    unfold Cache.cached. rewrite run_bind, Hmiss. reflexivity.
Qed.

(** ** The error handling pattern *)

Lemma error_handling_pattern_run {A} (api_operation : M A)
    (success_response : A → ToolResult) (w : World) :
  run (error_handling_pattern api_operation success_response) w =
  match run api_operation w with
  | (Returned result, w1) => (Returned (success_response result), w1)
  | (Raised (BraveSearchError b), w1) =>
      (Returned (ErrorObject "User-friendly error message"),
       with_logged (logged w1 ++ ["Specific error context: " +:+ detail b]) w1)
  | (Raised (OtherException _ message), w1) =>
      (Returned (ErrorObject "General error message"),
       with_logged (logged w1 ++ ["Unexpected error: " +:+ message]) w1)
  end.
Proof.
  unfold error_handling_pattern. rewrite run_bind, run_attempt.
  destruct (run api_operation w) as [[result|[b|name message]] w1]; reflexivity.
Qed.

(** X11: what the error handling pattern does beyond choosing its reply:
    when the operation returns, the world is as the operation left it; when
    it raises, one line is logged, made of a fixed prefix and the text of
    the exception, and the cache, the clock and the call log are as the
    operation left them.  The text of the exception reaches the log only,
    never the reply. *)
Theorem error_handling_pattern_effects {A} (api_operation : M A)
    (success_response : A → ToolResult) (w : World) :
  run (error_handling_pattern api_operation success_response) w =
  match run api_operation w with
  | (Returned result, w1) => (Returned (success_response result), w1)
  | (Raised (BraveSearchError b), w1) =>
      (Returned (ErrorObject "User-friendly error message"),
       with_logged (logged w1 ++ ["Specific error context: " +:+ detail b]) w1)
  | (Raised (OtherException _ message), w1) =>
      (Returned (ErrorObject "General error message"),
       with_logged (logged w1 ++ ["Unexpected error: " +:+ message]) w1)
  end.
Proof. apply error_handling_pattern_run. Qed.

(** X12: wrapping an operation twice in the error handling pattern is the
    same as wrapping it once: the inner pattern never raises, so the outer
    one has nothing to catch and logs nothing more. *)
Theorem error_handling_pattern_idempotent {A} (api_operation : M A)
    (success_response : A → ToolResult) (w : World) :
  run (error_handling_pattern
         (error_handling_pattern api_operation success_response) id) w
  = run (error_handling_pattern api_operation success_response) w.
Proof.
  rewrite (error_handling_pattern_run (error_handling_pattern _ _)).
  rewrite error_handling_pattern_run.
  destruct (run api_operation w) as [[result|[b|name message]] w1]; reflexivity.
Qed.

(** ** The API call pattern *)

(** X13: the API call pattern leaves the world exactly as its request left
    it, and on a cache miss the tool template replies as the API call
    pattern does: the same result, the same mapping for a
    [BraveSearchError], the same escaping exception for anything else. *)
Theorem template_replies_as_api_call_pattern (p : string) (n : Z)
    (api : M ResultSet) (w : World) :
  (run (api_call_pattern api (λ r, Success (Results r))) w).2 = (run api w).2 ∧
  (p ≠ EmptyString →
   run (Cache.get (tool_cache_key p n)) w = (Returned None, w) →
   (run (new_tool_name (Some p) n api) w).1
   = (run (api_call_pattern api (λ r, Success (Results r))) w).1).
Proof.
  assert (Hpattern : run (api_call_pattern api (λ r, Success (Results r))) w =
            match run api w with
            | (Returned r, w1) => (Returned (Success (Results r)), w1)
            | (Raised (BraveSearchError b), w1) =>
                (Returned (ErrorObject (detail b)), w1)
            | (Raised e, w1) => (Raised e, w1)
            end).
  { unfold api_call_pattern. rewrite run_bind, run_attempt, run_bind.
    destruct (run api w) as [[r|[b|name message]] w1]; reflexivity. }
  split.
  - rewrite Hpattern.
    destruct (run api w) as [[r|[b|name message]] w1]; reflexivity.
  - intros Hp Hmiss. rewrite (new_tool_name_run _ _ _ _ Hp), Hmiss, Hpattern.
    destruct (run api w) as [[r|[b|name message]] w1]; reflexivity.
Qed.

Lemma template_replies_as_api_call_pattern_witness :
  let api := Backend.execute Examples.plain_request in
  let w := Examples.replying (HttpResponse 401 NotJson) in
  (run (new_tool_name (Some "rust ownership") 10 api) w).1
  = (run (api_call_pattern api (λ r, Success (Results r))) w).1.
Proof.
  intros api w.
  apply (proj2 (template_replies_as_api_call_pattern "rust ownership" 10 api w)).
  - discriminate.
  - vm_compute. reflexivity.
Defined.

(** ** The strategy list *)

Lemma string_length_app (a b : string) :
  String.length (a +:+ b) = (String.length a + String.length b)%nat.
Proof.
  induction a as [|c a IH]; [reflexivity|].
  change (S (String.length (a +:+ b)) = S (String.length a + String.length b)).
  rewrite IH. reflexivity.
Qed.

Lemma quoted_is_longer (query : string) : quote +:+ query +:+ quote ≠ query.
Proof.
  intros Heq. apply (f_equal String.length) in Heq.
  rewrite !string_length_app in Heq. simpl in Heq. lia.
Qed.

(** X14: for every query the strategy list holds three pairwise different
    strategies: the exact-phrase query is never the query as given, not even
    for an empty or an already quoted query, and the time-filtered strategy
    has the query of the first and differs from it by its parameters. *)
Theorem strategies_pairwise_distinct (query : string) :
  length (strategies query) = 3%nat ∧
  NoDup (strategies query) ∧
  s_query <$> strategies query !! 2%nat = s_query <$> strategies query !! 0%nat.
Proof.
  split; [reflexivity|]. split; [|reflexivity].
  assert (Hparams : (∅ : gmap string string) ≠ {[ "freshness" := "py" ]}).
  { intros Heq. apply (f_equal (λ m : gmap string string, m !! "freshness")) in Heq.
    rewrite lookup_empty, lookup_singleton_eq in Heq. discriminate. }
  unfold strategies. repeat constructor.
  - intros Hin. apply elem_of_cons in Hin as [Heq|Hin].
    + apply (f_equal s_query) in Heq. simpl in Heq.
      symmetry in Heq. exact (quoted_is_longer _ Heq).
    + apply list_elem_of_singleton in Hin.
      apply (f_equal s_params) in Hin. exact (Hparams Hin).
  - intros Hin. apply list_elem_of_singleton in Hin.
    apply (f_equal s_params) in Hin. exact (Hparams Hin).
  - intros Hin. inversion Hin.
Qed.
